(** * The PID controller integration: [PidBaseClass] and the entry points

    A shallow embedding of [src/__init__.py].  The module is glue between a
    PID library ([dvg_pid_controller]) and a home-automation host: it stores
    configuration, mirrors the PID object's attributes as entity attributes,
    and registers a periodic callback with the host.

    Python values are modelled by small inductive types, Python floats by
    binary64 primitive floats, the attribute dictionary by a [gmap] with
    string keys, and methods by a state-and-error monad that threads the
    entity's attributes and the log of calls made to the host. *)

From Stdlib Require Import ZArith String Ascii List PrimFloat DecimalString.
From Stdlib Require Import SpecFloat FloatOps FloatAxioms.
From stdpp Require Import gmap strings.

Local Open Scope Z_scope.
Local Open Scope string_scope.

(** ** Exceptions and results *)

(** The exceptions that occur in the modelled code: the one the hooks raise
    explicitly, and the two that the keyword-unpacking call of [timedelta] can raise. *)
Inductive PyExc : Set :=
| NotImplementedError
| TypeError
| OverflowError.

Inductive Outcome (A : Type) : Type :=
| Returns (a : A)
| Raises (e : PyExc).

Arguments Returns {A} a.
Arguments Raises {A} e.

(** ** [datetime.timedelta] *)

(** A normalised duration, as [timedelta] stores it:
    [0 <= seconds < 86400] and [0 <= microseconds < 1000000]. *)
Record timedelta : Set := mk_timedelta {
  days : Z;
  seconds : Z;
  microseconds : Z
}.

Definition us_per_second : Z := 1000000.
Definition us_per_day : Z := 86400 * us_per_second.
Definition max_delta_days : Z := 999999999.

(** The keyword parameters of [timedelta(...)]. *)
Definition timedelta_keywords : gset string :=
  {[ "days"; "seconds"; "microseconds"; "milliseconds";
     "minutes"; "hours"; "weeks" ]}.

Definition kwarg (kw : gmap string Z) (name : string) : Z :=
  default 0 (kw !! name).

(** [timedelta] called with the keywords [kw], a mapping of keyword names to Python ints:
    an unknown keyword is a [TypeError]; otherwise the components are summed
    in microseconds and normalised, and a day count outside
    [-999999999 .. 999999999] is an [OverflowError]. *)
Definition timedelta_of_kwargs (kw : gmap string Z) : Outcome timedelta :=
  if bool_decide (dom kw ⊆ timedelta_keywords) then
    let total :=
      kwarg kw "days" * us_per_day
      + kwarg kw "seconds" * us_per_second
      + kwarg kw "microseconds"
      + kwarg kw "milliseconds" * 1000
      + kwarg kw "minutes" * (60 * us_per_second)
      + kwarg kw "hours" * (3600 * us_per_second)
      + kwarg kw "weeks" * (7 * us_per_day) in
    let d := total / us_per_day in
    let r := total mod us_per_day in
    if bool_decide (Z.abs d <= max_delta_days) then
      Returns (mk_timedelta d (r / us_per_second) (r mod us_per_second))
    else Raises OverflowError
  else Raises TypeError.

(** ** Decimal formatting, as used by [str] *)

(** ["%d" % n] *)
Definition fmt_d (n : Z) : string := NilZero.string_of_int (Z.to_int n).

Fixpoint zeros (n : nat) : string :=
  match n with
  | O => ""
  | S n' => String "0" (zeros n')
  end.

(** ["%0<width>d" % n] for [0 <= n] *)
Definition fmt_0d (width : nat) (n : Z) : string :=
  let s := fmt_d n in
  zeros (width - String.length s) ++ s.

(** [timedelta.__str__]: [[D day[s], ][H]H:MM:SS[.UUUUUU]]. *)
Definition str_timedelta (td : timedelta) : string :=
  let mm := seconds td / 60 in
  let ss := seconds td mod 60 in
  let hh := mm / 60 in
  let mm := mm mod 60 in
  let s := fmt_d hh ++ ":" ++ fmt_0d 2 mm ++ ":" ++ fmt_0d 2 ss in
  let s :=
    if bool_decide (days td = 0) then s
    else fmt_d (days td) ++ " day"
         ++ (if bool_decide (Z.abs (days td) = 1) then "" else "s")
         ++ ", " ++ s in
  if bool_decide (microseconds td = 0) then s
  else s ++ "." ++ fmt_0d 6 (microseconds td).

(** ** The stored start of the last cycle *)

(** A UTC time stamp with its microseconds cleared, the value the cycle hook's
    docstring tells a subclass to store:
    [dt_util.utcnow().replace(microsecond=0)]. *)
Record datetime : Set := mk_datetime {
  year : Z; month : Z; day : Z;
  hour : Z; minute : Z; second : Z
}.

(** [datetime.__str__], that is [isoformat(sep=' ')], for such a stamp. *)
Definition str_datetime (dt : datetime) : string :=
  fmt_0d 4 (year dt) ++ "-" ++ fmt_0d 2 (month dt) ++ "-" ++ fmt_0d 2 (day dt)
  ++ " " ++ fmt_0d 2 (hour dt) ++ ":" ++ fmt_0d 2 (minute dt) ++ ":"
  ++ fmt_0d 2 (second dt) ++ "+00:00".

(** What [_attr_last_cycle_start] can hold: [None] from the constructor, the
    time stamp a subclass stores, or a string as the attribute is annotated. *)
Inductive LastCycleStart : Set :=
| LcsNone
| LcsDatetime (dt : datetime)
| LcsStr (s : string).

(** [str(x)] for the stored value. *)
Definition str_last_cycle_start (x : LastCycleStart) : string :=
  match x with
  | LcsNone => "None"
  | LcsDatetime dt => str_datetime dt
  | LcsStr s => s
  end.

(** ** Python values *)

(** The values that are passed as [cycle_time] or stored in the attribute
    dictionary ([dict[str, Any]]).  A mapping has string keys and int values,
    the form of a time-period configuration such as [{"seconds": 10}]. *)
Inductive PyVal : Type :=
| VNone
| VBool (b : bool)
| VInt (n : Z)
| VFloat (f : float)
| VStr (s : string)
| VTimedelta (td : timedelta)
| VDatetime (dt : datetime)
| VDict (kw : gmap string Z).

Definition val_of_last_cycle_start (x : LastCycleStart) : PyVal :=
  match x with
  | LcsNone => VNone
  | LcsDatetime dt => VDatetime dt
  | LcsStr s => VStr s
  end.

(** [isinstance(v, timedelta)] *)
Definition isinstance_timedelta (v : PyVal) : bool :=
  match v with
  | VTimedelta _ => true
  | _ => false
  end.

(** Whether [v] is a mapping, which is what keyword unpacking accepts. *)
Definition is_mapping (v : PyVal) : bool :=
  match v with
  | VDict _ => true
  | _ => false
  end.

(** The [**v] of a call: [v] must be a mapping, anything else is a
    [TypeError] ("argument after ** must be a mapping"). *)
Definition unpack_kwargs (v : PyVal) : Outcome (gmap string Z) :=
  match v with
  | VDict kw => Returns kw
  | _ => Raises TypeError
  end.

(** [timedelta] called with [v] unpacked as its keywords *)
Definition timedelta_unpacked (v : PyVal) : Outcome timedelta :=
  match unpack_kwargs v with
  | Returns kw => timedelta_of_kwargs kw
  | Raises e => Raises e
  end.

(** ** The wrapped PID object *)

(** The attributes of [dvg_pid_controller.PID_Controller] that this module
    reads.  The numeric ones are floats, as the properties are annotated. *)
Record PID_Controller : Set := mk_pid {
  kp : float;
  ki : float;
  kd : float;
  in_auto : bool;
  last_input : float;
  output : float;
  last_error : float
}.

(** ** The host framework *)

Record HomeAssistant : Set := mk_hass { hass_id : nat }.

Record ConfigEntry : Set := mk_entry { entry_id : string }.

Inductive Platform : Set :=
| NUMBER
| SENSOR
| SWITCH.

Definition PLATFORMS : list Platform := [NUMBER].

(** The callables this module hands to the host: the bound method
    [self._async_pid_cycle] and the module-level update listener. *)
Inductive Callable : Set :=
| bound_async_pid_cycle
| fn_config_entry_update_listener.

(** A cancel or unsubscribe handle returned by the host. *)
Inductive CALLBACK_TYPE : Set :=
| Unsub (id : nat).

(** The calls this module makes into the host, with their arguments. *)
Inductive HostCall : Set :=
| call_async_track_time_interval
    (hass : option HomeAssistant) (action : Callable)
    (interval : timedelta) (cancel_on_shutdown : bool)
| call_async_on_remove (func : CALLBACK_TYPE)
| call_async_forward_entry_setups
    (hass : HomeAssistant) (entry : ConfigEntry) (platforms : list Platform)
| call_add_update_listener (entry : ConfigEntry) (listener : Callable)
| call_async_on_unload (entry : ConfigEntry) (func : CALLBACK_TYPE)
| call_async_reload (hass : HomeAssistant) (id : string)
| call_async_unload_platforms
    (hass : HomeAssistant) (entry : ConfigEntry) (platforms : list Platform).

(** What the host answers.  Each answer may depend on every call made so
    far, the answered one included (it is the last of the list). *)
Record HostFramework : Set := mk_host {
  track_time_interval_handle : list HostCall -> CALLBACK_TYPE;
  update_listener_handle : list HostCall -> CALLBACK_TYPE;
  reload_result : list HostCall -> bool;
  unload_platforms_result : list HostCall -> bool
}.

Definition is_timer_registration (c : HostCall) : bool :=
  match c with
  | call_async_track_time_interval _ _ _ _ => true
  | _ => false
  end.

(** ** The monad of method bodies *)

(** Running a body from a state [S] (the attributes of [self], or [unit] for
    a module-level function) and a log of host calls gives an outcome, the
    state and the log afterwards.  A raised exception keeps the effects
    that happened before it. *)
Record Run (S A : Type) : Type := mk_run {
  outcome : Outcome A;
  state : S;
  calls : list HostCall
}.

Arguments mk_run {S A} outcome state calls.
Arguments outcome {S A} r.
Arguments state {S A} r.
Arguments calls {S A} r.

Definition Py (S A : Type) : Type := S -> list HostCall -> Run S A.

Definition ret {S A} (a : A) : Py S A :=
  fun s log => mk_run (Returns a) s log.

Definition raise {S A} (e : PyExc) : Py S A :=
  fun s log => mk_run (Raises e) s log.

Definition bind {S A B} (m : Py S A) (k : A -> Py S B) : Py S B :=
  fun s log =>
    let r := m s log in
    match outcome r with
    | Returns a => k a (state r) (calls r)
    | Raises e => mk_run (Raises e) (state r) (calls r)
    end.

(** Reading [self]. *)
Definition get {S} : Py S S :=
  fun s log => mk_run (Returns s) s log.

(** A call into the host: it is logged, and the host's answer is returned. *)
Definition host_call {S A} (c : HostCall) (answer : list HostCall -> A) : Py S A :=
  fun s log => let log' := (log ++ [c])%list in mk_run (Returns (answer log')) s log'.

Declare Scope py_scope.
Delimit Scope py_scope with py.
Notation "x <- m ;; k" := (bind m (fun x => k))
  (at level 100, m at level 99, k at level 200, right associativity) : py_scope.
Local Open Scope py_scope.

(** A caller that awaits the same body [n] times in a row; an exception
    ends the loop. *)
Fixpoint repeat_py {S} (n : nat) (m : Py S unit) : Py S unit :=
  match n with
  | O => ret tt
  | S n' => _ <- m ;; repeat_py n' m
  end.

(** ** The entity *)

(** The attributes of a [PidBaseClass] instance: the three the constructor
    sets, and [hass], which the host fills in when the entity is added
    ([None] until then). *)
Record PidBaseClass : Set := mk_entity {
  _pid : PID_Controller;
  _attr_cycle_time : timedelta;
  _attr_last_cycle_start : LastCycleStart;
  hass : option HomeAssistant
}.

(** ** Concrete instances, used to evaluate the definitions *)

(** A stand-in for the PID library: the two directions, and a constructor
    that stores the gains as given, starts in manual mode and has NaN for
    the values no cycle has computed yet. *)
Inductive Direction : Set :=
| Direction_DIRECT
| Direction_REVERSE.

Definition sample_PID (Kp Ki Kd : float) (direction : Direction) : PID_Controller :=
  mk_pid Kp Ki Kd false nan nan nan.

(** A host that numbers its handles by the calls seen so far, and whose
    reload and unload succeed. *)
Definition sample_host : HostFramework :=
  mk_host (fun log => Unsub (List.length log))
          (fun log => Unsub (List.length log))
          (fun _ => true)
          (fun _ => true).

Definition ten_seconds : timedelta := mk_timedelta 0 10 0.

(** An entity in the middle of its life: a cycle has run, the error is
    still NaN. *)
Definition sample_entity : PidBaseClass :=
  mk_entity (mk_pid 2 0.5 0 true 21.5 40 nan) ten_seconds
            (LcsDatetime (mk_datetime 2024 1 2 3 4 5))
            (Some (mk_hass 1)).

Section PidBase.

(** The PID library: its direction constants and the constructor
    [PID(Kp, Ki, Kd, controller_direction)]. *)
Variable PIDConst : Type.
Variable DIRECT : PIDConst.
Variable PID : float -> float -> float -> PIDConst -> PID_Controller.

(** The attribute names imported from [.const]. *)
Variable ATTR_CYCLE_TIME : string.
Variable ATTR_LAST_CYCLE_START : string.
Variable ATTR_PID_ENABLE : string.
Variable ATTR_PID_ERROR : string.
Variable ATTR_PID_INPUT : string.
Variable ATTR_PID_KD : string.
Variable ATTR_PID_KI : string.
Variable ATTR_PID_KP : string.
Variable ATTR_PID_OUTPUT : string.

(** The host the module runs in. *)
Variable host : HostFramework.

(** *** Host functions *)

Definition async_track_time_interval {S} (hass : option HomeAssistant)
  (action : Callable) (interval : timedelta) (cancel_on_shutdown : bool)
  : Py S CALLBACK_TYPE :=
  host_call (call_async_track_time_interval hass action interval cancel_on_shutdown)
            (track_time_interval_handle host).

Definition async_on_remove {S} (func : CALLBACK_TYPE) : Py S unit :=
  host_call (call_async_on_remove func) (fun _ => tt).

Definition async_forward_entry_setups {S} (hass : HomeAssistant)
  (entry : ConfigEntry) (platforms : list Platform) : Py S unit :=
  host_call (call_async_forward_entry_setups hass entry platforms) (fun _ => tt).

Definition add_update_listener {S} (entry : ConfigEntry) (listener : Callable)
  : Py S CALLBACK_TYPE :=
  host_call (call_add_update_listener entry listener) (update_listener_handle host).

Definition async_on_unload {S} (entry : ConfigEntry) (func : CALLBACK_TYPE)
  : Py S unit :=
  host_call (call_async_on_unload entry func) (fun _ => tt).

Definition async_reload {S} (hass : HomeAssistant) (id : string) : Py S bool :=
  host_call (call_async_reload hass id) (reload_result host).

Definition async_unload_platforms {S} (hass : HomeAssistant)
  (entry : ConfigEntry) (platforms : list Platform) : Py S bool :=
  host_call (call_async_unload_platforms hass entry platforms)
            (unload_platforms_result host).

(** *** [PidBaseClass] *)

(** The defaults of the constructor's parameters; the gains are annotated
    [float], so the literals [1] and [0] stand for the floats. *)
Definition default_k_p : float := 1%float.
Definition default_k_i : float := 0x1.47ae147ae147bp-7%float.
Definition default_k_d : float := 0%float.
Definition default_cycle_time : PyVal := VStr "00:00:10".

(** [PidBaseClass.__init__]: the new instance, or the exception raised.
    The first branch of the match is the [isinstance(cycle_time, timedelta)]
    test; [hass] is still the class default [None]. *)
Definition __init__ (k_p k_i k_d : float) (direction : PIDConst)
  (cycle_time : PyVal) : Outcome PidBaseClass :=
  let pid := PID k_p k_i k_d direction in
  let attr_cycle_time :=
    match cycle_time with
    | VTimedelta td => Returns td
    | _ => timedelta_unpacked cycle_time
    end in
  match attr_cycle_time with
  | Returns td => Returns (mk_entity pid td LcsNone None)
  | Raises e => Raises e
  end.

Definition cycle_time : Py PidBaseClass string :=
  self <- get ;; ret (str_timedelta (_attr_cycle_time self)).

Definition last_cycle_start : Py PidBaseClass string :=
  self <- get ;; ret (str_last_cycle_start (_attr_last_cycle_start self)).

Definition k_p : Py PidBaseClass float :=
  self <- get ;; ret (kp (_pid self)).

Definition k_i : Py PidBaseClass float :=
  self <- get ;; ret (ki (_pid self)).

Definition k_d : Py PidBaseClass float :=
  self <- get ;; ret (kd (_pid self)).

Definition enable_pid : Py PidBaseClass bool :=
  self <- get ;; ret (in_auto (_pid self)).

Definition async_enable (value : bool) : Py PidBaseClass Empty_set :=
  raise NotImplementedError.

(** [filter_nan]: [None] for NaN, the float itself otherwise. *)
Definition filter_nan (value : float) : Py PidBaseClass PyVal :=
  if is_nan value then ret VNone else ret (VFloat value).

Definition pid_input : Py PidBaseClass PyVal :=
  self <- get ;; filter_nan (last_input (_pid self)).

Definition pid_output : Py PidBaseClass PyVal :=
  self <- get ;; filter_nan (output (_pid self)).

Definition pid_error : Py PidBaseClass PyVal :=
  self <- get ;; filter_nan (last_error (_pid self)).

Definition _async_pid_cycle (args : list PyVal) : Py PidBaseClass Empty_set :=
  raise NotImplementedError.

Definition pid_state_attributes : Py PidBaseClass (gmap string PyVal) :=
  let attr : gmap string PyVal := ∅ in
  v <- cycle_time ;; let attr := <[ATTR_CYCLE_TIME := VStr v]> attr in
  v <- k_p ;; let attr := <[ATTR_PID_KP := VFloat v]> attr in
  v <- k_i ;; let attr := <[ATTR_PID_KI := VFloat v]> attr in
  v <- k_d ;; let attr := <[ATTR_PID_KD := VFloat v]> attr in
  v <- pid_input ;; let attr := <[ATTR_PID_INPUT := v]> attr in
  v <- pid_output ;; let attr := <[ATTR_PID_OUTPUT := v]> attr in
  v <- pid_error ;; let attr := <[ATTR_PID_ERROR := v]> attr in
  self <- get ;;
  let attr := <[ATTR_LAST_CYCLE_START :=
                  val_of_last_cycle_start (_attr_last_cycle_start self)]> attr in
  v <- enable_pid ;; let attr := <[ATTR_PID_ENABLE := VBool v]> attr in
  ret attr.

Definition _async_start_pid_cycle : Py PidBaseClass unit :=
  self <- get ;;
  unsub <- async_track_time_interval (hass self) bound_async_pid_cycle
             (_attr_cycle_time self) true ;;
  async_on_remove unsub.

(** *** Module-level entry points *)

Definition config_entry_update_listener (hass : HomeAssistant)
  (entry : ConfigEntry) : Py unit unit :=
  _ <- async_reload hass (entry_id entry) ;; ret tt.

Definition async_setup_entry (hass : HomeAssistant) (entry : ConfigEntry)
  : Py unit bool :=
  _ <- async_forward_entry_setups hass entry PLATFORMS ;;
  unsub <- add_update_listener entry fn_config_entry_update_listener ;;
  _ <- async_on_unload entry unsub ;;
  ret true.

Definition async_unload_entry (hass : HomeAssistant) (entry : ConfigEntry)
  : Py unit bool :=
  async_unload_platforms hass entry PLATFORMS.

(** The nine attribute names, in the order the dictionary is filled. *)
Definition ATTR_names : list string :=
  [ATTR_CYCLE_TIME; ATTR_PID_KP; ATTR_PID_KI; ATTR_PID_KD; ATTR_PID_INPUT;
   ATTR_PID_OUTPUT; ATTR_PID_ERROR; ATTR_LAST_CYCLE_START; ATTR_PID_ENABLE].

(** [attr[key]] is the value the property [prop] returns, seen through the
    injection [inj] of its return type into the Python values. *)
Definition maps_to_property {A} (attr : gmap string PyVal) (key : string)
  (inj : A -> PyVal) (prop : Py PidBaseClass A)
  (self : PidBaseClass) (log : list HostCall) : Prop :=
  exists v, outcome (prop self log) = Returns v /\ attr !! key = Some (inj v).

(** A body that changes neither [self] nor the log of host calls. *)
Definition reads_only {A} (prop : Py PidBaseClass A) : Prop :=
  forall self log, state (prop self log) = self /\ calls (prop self log) = log.

(** The assignments [attr[name] = value] of [pid_state_attributes], in the
    order the source makes them. *)
Definition attribute_items (self : PidBaseClass) : list (string * PyVal) :=
  [ (ATTR_CYCLE_TIME, VStr (str_timedelta (_attr_cycle_time self)));
    (ATTR_PID_KP, VFloat (kp (_pid self)));
    (ATTR_PID_KI, VFloat (ki (_pid self)));
    (ATTR_PID_KD, VFloat (kd (_pid self)));
    (ATTR_PID_INPUT, if is_nan (last_input (_pid self)) then VNone
                     else VFloat (last_input (_pid self)));
    (ATTR_PID_OUTPUT, if is_nan (output (_pid self)) then VNone
                      else VFloat (output (_pid self)));
    (ATTR_PID_ERROR, if is_nan (last_error (_pid self)) then VNone
                     else VFloat (last_error (_pid self)));
    (ATTR_LAST_CYCLE_START,
       val_of_last_cycle_start (_attr_last_cycle_start self));
    (ATTR_PID_ENABLE, VBool (in_auto (_pid self))) ].

(** ** Running the bodies *)

Lemma bind_returns {S A B} (m : Py S A) (k : A -> Py S B) s log a s' log' :
  m s log = mk_run (Returns a) s' log' ->
  bind m k s log = k a s' log'.
Proof. intros Hm. unfold bind. rewrite Hm. reflexivity. Qed.

Lemma filter_nan_run value self log :
  filter_nan value self log
  = mk_run (Returns (if is_nan value then VNone else VFloat value)) self log.
Proof. unfold filter_nan. destruct (is_nan value); reflexivity. Qed.

Lemma pid_input_run self log :
  pid_input self log
  = mk_run (Returns (if is_nan (last_input (_pid self)) then VNone
                     else VFloat (last_input (_pid self)))) self log.
Proof. unfold pid_input. erewrite bind_returns by reflexivity. apply filter_nan_run. Qed.

Lemma pid_output_run self log :
  pid_output self log
  = mk_run (Returns (if is_nan (output (_pid self)) then VNone
                     else VFloat (output (_pid self)))) self log.
Proof. unfold pid_output. erewrite bind_returns by reflexivity. apply filter_nan_run. Qed.

Lemma pid_error_run self log :
  pid_error self log
  = mk_run (Returns (if is_nan (last_error (_pid self)) then VNone
                     else VFloat (last_error (_pid self)))) self log.
Proof. unfold pid_error. erewrite bind_returns by reflexivity. apply filter_nan_run. Qed.

Lemma pid_state_attributes_run self log :
  pid_state_attributes self log
  = mk_run (Returns
      (<[ATTR_PID_ENABLE := VBool (in_auto (_pid self))]>
       (<[ATTR_LAST_CYCLE_START :=
            val_of_last_cycle_start (_attr_last_cycle_start self)]>
       (<[ATTR_PID_ERROR := if is_nan (last_error (_pid self)) then VNone
                            else VFloat (last_error (_pid self))]>
       (<[ATTR_PID_OUTPUT := if is_nan (output (_pid self)) then VNone
                             else VFloat (output (_pid self))]>
       (<[ATTR_PID_INPUT := if is_nan (last_input (_pid self)) then VNone
                            else VFloat (last_input (_pid self))]>
       (<[ATTR_PID_KD := VFloat (kd (_pid self))]>
       (<[ATTR_PID_KI := VFloat (ki (_pid self))]>
       (<[ATTR_PID_KP := VFloat (kp (_pid self))]>
       (<[ATTR_CYCLE_TIME := VStr (str_timedelta (_attr_cycle_time self))]>
        ∅)))))))))) self log.
Proof.
  unfold pid_state_attributes.
  do 4 (erewrite bind_returns by reflexivity).
  erewrite bind_returns by apply pid_input_run.
  erewrite bind_returns by apply pid_output_run.
  erewrite bind_returns by apply pid_error_run.
  do 2 (erewrite bind_returns by reflexivity).
  reflexivity.
Qed.

(** The dictionary is the one the nine assignments build, the later ones
    on top. *)
Lemma pid_state_attributes_items self log :
  pid_state_attributes self log
  = mk_run (Returns (list_to_map (reverse (attribute_items self)))) self log.
Proof. apply pid_state_attributes_run. Qed.

Lemma attribute_items_names self : (attribute_items self).*1 = ATTR_names.
Proof. reflexivity. Qed.

(** With pairwise different names, every assignment can be read back. *)
Lemma attribute_items_lookup self key v :
  NoDup ATTR_names ->
  (key, v) ∈ attribute_items self ->
  (list_to_map (reverse (attribute_items self)) : gmap string PyVal) !! key
  = Some v.
Proof.
  intros Hnd Hin. apply elem_of_list_to_map_1.
  - rewrite fmap_reverse, reverse_Permutation, attribute_items_names. exact Hnd.
  - apply elem_of_reverse. exact Hin.
Qed.

(** One run of [_async_start_pid_cycle]. *)
Lemma start_pid_cycle_step self log :
  _async_start_pid_cycle self log
  = mk_run (Returns tt) self
      (log ++ [ call_async_track_time_interval (hass self)
                  bound_async_pid_cycle (_attr_cycle_time self) true;
                call_async_on_remove
                  (track_time_interval_handle host
                     (log ++ [call_async_track_time_interval (hass self)
                                bound_async_pid_cycle
                                (_attr_cycle_time self) true])) ])%list.
Proof.
  unfold _async_start_pid_cycle, async_track_time_interval, async_on_remove,
    bind, get, host_call. cbn [outcome state calls].
  rewrite <- app_assoc. reflexivity.
Qed.

(** [timedelta(seconds=n)] for an int [n]. *)
Lemma timedelta_of_seconds (n : Z) :
  timedelta_of_kwargs {[ "seconds" := n ]}
  = if bool_decide (Z.abs (n / 86400) <= max_delta_days) then
      Returns (mk_timedelta (n / 86400) (n mod 86400) 0)
    else Raises OverflowError.
Proof.
  unfold timedelta_of_kwargs.
  rewrite bool_decide_eq_true_2.
  2:{ rewrite dom_singleton_L. unfold timedelta_keywords. set_solver. }
  unfold kwarg. rewrite lookup_singleton_eq.
  rewrite !lookup_singleton_ne by discriminate.
  cbn [default from_option id].
  unfold us_per_day, us_per_second.
  replace (0 * (86400 * 1000000) + n * 1000000 + 0 + 0 * 1000
           + 0 * (60 * 1000000) + 0 * (3600 * 1000000)
           + 0 * (7 * (86400 * 1000000)))
    with (n * 1000000) by lia.
  rewrite Z.div_mul_cancel_r by lia.
  rewrite Z.mul_mod_distr_r by lia.
  rewrite Z.div_mul by lia.
  rewrite Z.mod_mul by lia.
  reflexivity.
Qed.

(** A float that compares equal to itself is not NaN; every value of the
    binary64 format other than NaN does. *)
Lemma SFeqb_refl (x : spec_float) : x <> S754_nan -> SFeqb x x = true.
Proof.
  intros Hx. unfold SFeqb, SFcompare.
  destruct x as [s|s| |s m e]; try congruence.
  - destruct s; reflexivity.
  - destruct s; rewrite Z.compare_refl, Pos.compare_cont_refl; reflexivity.
Qed.

Lemma infinite_is_not_nan (x : float) : is_infinity x = true -> is_nan x = false.
Proof.
  unfold is_infinity, is_nan. intros Hinf.
  rewrite FloatAxioms.eqb_spec in Hinf. rewrite abs_spec in Hinf.
  rewrite FloatAxioms.eqb_spec.
  destruct (Prim2SF x) as [s|s| |s m e] eqn:Hx.
  - rewrite SFeqb_refl by discriminate. reflexivity.
  - rewrite SFeqb_refl by discriminate. reflexivity.
  - vm_compute in Hinf. discriminate Hinf.
  - rewrite SFeqb_refl by discriminate. reflexivity.
Qed.

(** Apart from the two hooks and the constructor, every operation of the
    class returns: the properties and [_async_start_pid_cycle] on every
    instance, and the constructor itself when it is given a [timedelta]. *)
Lemma other_operations_return (self : PidBaseClass) (log : list HostCall) :
  (exists v, outcome (pid_state_attributes self log) = Returns v)
  /\ (exists v, outcome (cycle_time self log) = Returns v)
  /\ (exists v, outcome (last_cycle_start self log) = Returns v)
  /\ (exists v, outcome (k_p self log) = Returns v)
  /\ (exists v, outcome (k_i self log) = Returns v)
  /\ (exists v, outcome (k_d self log) = Returns v)
  /\ (exists v, outcome (enable_pid self log) = Returns v)
  /\ (forall value, exists v, outcome (filter_nan value self log) = Returns v)
  /\ (exists v, outcome (pid_input self log) = Returns v)
  /\ (exists v, outcome (pid_output self log) = Returns v)
  /\ (exists v, outcome (pid_error self log) = Returns v)
  /\ (exists v, outcome (_async_start_pid_cycle self log) = Returns v)
  /\ (forall Kp Ki Kd direction td,
        exists new, __init__ Kp Ki Kd direction (VTimedelta td) = Returns new).
Proof.
  rewrite pid_state_attributes_run, pid_input_run, pid_output_run, pid_error_run.
  repeat split; try intros value; try intros Ki Kd direction td;
    rewrite ?filter_nan_run; eexists; reflexivity.
Qed.

(** ** The claims *)

(** C1: for every instance, [pid_input], [pid_output] and [pid_error] return
    [None] when the PID object's [last_input], [output] and [last_error] is
    NaN, and return that field's value unchanged otherwise. *)
Theorem nan_filtered_properties (self : PidBaseClass) (log : list HostCall) :
  (is_nan (last_input (_pid self)) = true ->
     outcome (pid_input self log) = Returns VNone)
  /\ (is_nan (last_input (_pid self)) = false ->
     outcome (pid_input self log) = Returns (VFloat (last_input (_pid self))))
  /\ (is_nan (output (_pid self)) = true ->
     outcome (pid_output self log) = Returns VNone)
  /\ (is_nan (output (_pid self)) = false ->
     outcome (pid_output self log) = Returns (VFloat (output (_pid self))))
  /\ (is_nan (last_error (_pid self)) = true ->
     outcome (pid_error self log) = Returns VNone)
  /\ (is_nan (last_error (_pid self)) = false ->
     outcome (pid_error self log) = Returns (VFloat (last_error (_pid self)))).
Proof.
  rewrite pid_input_run, pid_output_run, pid_error_run. cbn [outcome].
  repeat split; intros ->; reflexivity.
Qed.

(** C2: [async_enable] and [_async_pid_cycle] raise [NotImplementedError]
    for every instance and every argument; but they are not the only
    operations that raise: the constructor called with its own defaults
    raises [TypeError]. *)
Theorem hooks_raise_and_default_init_raises :
  (forall value self log,
     outcome (async_enable value self log) = Raises NotImplementedError)
  /\ (forall args self log,
     outcome (_async_pid_cycle args self log) = Raises NotImplementedError)
  /\ __init__ default_k_p default_k_i default_k_d DIRECT default_cycle_time
     = Raises TypeError.
Proof. split; [|split]; [intros; reflexivity ..| reflexivity]. Qed.

(** C3: the constructor passes [k_p], [k_i], [k_d] and [direction] to the
    PID constructor and keeps the object it returns, and on every instance
    the properties [k_p], [k_i] and [k_d] return that object's [kp], [ki]
    and [kd]. *)
Theorem init_wires_gains (Kp Ki Kd : float) (direction : PIDConst)
  (ct : PyVal) (new : PidBaseClass) :
  __init__ Kp Ki Kd direction ct = Returns new ->
  _pid new = PID Kp Ki Kd direction
  /\ forall self log,
       outcome (k_p self log) = Returns (kp (_pid self))
       /\ outcome (k_i self log) = Returns (ki (_pid self))
       /\ outcome (k_d self log) = Returns (kd (_pid self)).
Proof.
  unfold __init__. intros Hinit. split.
  - destruct ct; cbn in Hinit;
      try discriminate Hinit;
      try (injection Hinit as <-; reflexivity).
    destruct (timedelta_of_kwargs kw); [injection Hinit as <-; reflexivity | discriminate].
  - intros self log. repeat split.
Qed.

(** C4: [pid_state_attributes] returns a dictionary with exactly nine keys,
    each mapped to the value of the corresponding property; the last-cycle
    entry holds the stored value itself, and [enable_pid] is the PID
    object's [in_auto].  The nine names come from [.const] and are taken to
    be pairwise different. *)
Theorem pid_state_attributes_nine_keys (self : PidBaseClass) (log : list HostCall) :
  NoDup ATTR_names ->
  exists attr : gmap string PyVal,
    outcome (pid_state_attributes self log) = Returns attr
    /\ dom attr = list_to_set ATTR_names
    /\ size attr = 9%nat
    /\ maps_to_property attr ATTR_CYCLE_TIME VStr cycle_time self log
    /\ maps_to_property attr ATTR_PID_KP VFloat k_p self log
    /\ maps_to_property attr ATTR_PID_KI VFloat k_i self log
    /\ maps_to_property attr ATTR_PID_KD VFloat k_d self log
    /\ maps_to_property attr ATTR_PID_INPUT id pid_input self log
    /\ maps_to_property attr ATTR_PID_OUTPUT id pid_output self log
    /\ maps_to_property attr ATTR_PID_ERROR id pid_error self log
    /\ attr !! ATTR_LAST_CYCLE_START
       = Some (val_of_last_cycle_start (_attr_last_cycle_start self))
    /\ maps_to_property attr ATTR_PID_ENABLE VBool enable_pid self log
    /\ outcome (enable_pid self log) = Returns (in_auto (_pid self)).
Proof.
  intros Hnd. rewrite pid_state_attributes_run. cbn [outcome].
  pose (items :=
    [ (ATTR_PID_ENABLE, VBool (in_auto (_pid self)));
      (ATTR_LAST_CYCLE_START,
         val_of_last_cycle_start (_attr_last_cycle_start self));
      (ATTR_PID_ERROR, if is_nan (last_error (_pid self)) then VNone
                       else VFloat (last_error (_pid self)));
      (ATTR_PID_OUTPUT, if is_nan (output (_pid self)) then VNone
                        else VFloat (output (_pid self)));
      (ATTR_PID_INPUT, if is_nan (last_input (_pid self)) then VNone
                       else VFloat (last_input (_pid self)));
      (ATTR_PID_KD, VFloat (kd (_pid self)));
      (ATTR_PID_KI, VFloat (ki (_pid self)));
      (ATTR_PID_KP, VFloat (kp (_pid self)));
      (ATTR_CYCLE_TIME, VStr (str_timedelta (_attr_cycle_time self))) ]).
  exists (list_to_map items).
  assert (Hkeys : items.*1 = reverse ATTR_names) by reflexivity.
  assert (Hnd' : NoDup items.*1) by (rewrite Hkeys, reverse_Permutation; exact Hnd).
  assert (Hdom : dom (list_to_map items : gmap string PyVal)
                 = list_to_set ATTR_names).
  { rewrite dom_list_to_map_L, Hkeys. apply set_eq. intros k.
    rewrite !elem_of_list_to_set, elem_of_reverse. reflexivity. }
  assert (Hlook : forall k v, (k, v) ∈ items ->
                    (list_to_map items : gmap string PyVal) !! k = Some v).
  { intros k v Hin. apply elem_of_list_to_map_1; assumption. }
  split; [reflexivity|].
  split; [exact Hdom|].
  split.
  { rewrite <- size_dom, Hdom, size_list_to_set by exact Hnd. reflexivity. }
  unfold maps_to_property.
  rewrite pid_input_run, pid_output_run, pid_error_run. cbn [outcome].
  repeat split;
    try (eexists; split; [reflexivity|]);
    try (apply Hlook; unfold items;
         repeat first [apply list_elem_of_here | apply list_elem_of_further]).
Qed.

(** C5: [_async_start_pid_cycle] makes exactly one registration call to the
    host's interval timer, with [_async_pid_cycle] as the callback, the
    stored cycle time as the period and cancel-on-shutdown enabled, and hands
    the returned cancel handle to [async_on_remove]; it makes no other call
    and leaves the entity as it was. *)
Theorem start_pid_cycle_registers_once (self : PidBaseClass) (log : list HostCall) :
  let registration :=
    call_async_track_time_interval (hass self) bound_async_pid_cycle
      (_attr_cycle_time self) true in
  let handle := track_time_interval_handle host (log ++ [registration])%list in
  let r := _async_start_pid_cycle self log in
  outcome r = Returns tt
  /\ state r = self
  /\ calls r = (log ++ [registration; call_async_on_remove handle])%list
  /\ List.length
       (List.filter is_timer_registration (drop (List.length log) (calls r)))
     = 1%nat.
Proof.
  cbn zeta. unfold _async_start_pid_cycle, async_track_time_interval,
    async_on_remove, bind, get, host_call. cbn [outcome state calls].
  rewrite <- app_assoc. cbn [app].
  repeat split. rewrite drop_app_length. reflexivity.
Qed.

(** C6: [async_setup_entry] forwards the entry to the NUMBER platform,
    registers [config_entry_update_listener] as the entry's update listener
    and returns [True]; the listener reloads the entry; [async_unload_entry]
    returns the result of the host's platform-unload call. *)
Theorem entry_points_forward_to_host (hass0 : HomeAssistant)
  (entry : ConfigEntry) (log : list HostCall) :
  let forward := call_async_forward_entry_setups hass0 entry [NUMBER] in
  let listen := call_add_update_listener entry fn_config_entry_update_listener in
  let handle := update_listener_handle host (log ++ [forward; listen])%list in
  let setup := async_setup_entry hass0 entry tt log in
  let reload := config_entry_update_listener hass0 entry tt log in
  let unload := async_unload_entry hass0 entry tt log in
  outcome setup = Returns true
  /\ calls setup
     = (log ++ [forward; listen; call_async_on_unload entry handle])%list
  /\ outcome reload = Returns tt
  /\ calls reload = (log ++ [call_async_reload hass0 (entry_id entry)])%list
  /\ calls unload
     = (log ++ [call_async_unload_platforms hass0 entry [NUMBER]])%list
  /\ outcome unload = Returns (unload_platforms_result host (calls unload)).
Proof.
  cbn zeta. unfold async_setup_entry, config_entry_update_listener,
    async_unload_entry, async_forward_entry_setups, add_update_listener,
    async_on_unload, async_reload, async_unload_platforms, bind, ret,
    host_call, PLATFORMS. cbn [outcome state calls].
  rewrite <- !app_assoc. cbn [app].
  repeat split.
Qed.

(** C7: a [timedelta] passed as [cycle_time] is stored unchanged; for every
    other argument the constructor evaluates [timedelta] on the unpacked
    argument, which raises [TypeError] unless the argument is a mapping, so
    every string, the default ["00:00:10"] included, makes the constructor
    raise [TypeError]. *)
Theorem init_cycle_time (Kp Ki Kd : float) (direction : PIDConst) :
  (forall td,
     exists self, __init__ Kp Ki Kd direction (VTimedelta td) = Returns self
                  /\ _attr_cycle_time self = td)
  /\ (forall v, isinstance_timedelta v = false ->
        __init__ Kp Ki Kd direction v
        = match timedelta_unpacked v with
          | Returns td =>
              Returns (mk_entity (PID Kp Ki Kd direction) td LcsNone None)
          | Raises e => Raises e
          end)
  /\ (forall v, is_mapping v = false -> timedelta_unpacked v = Raises TypeError)
  /\ (forall s, __init__ Kp Ki Kd direction (VStr s) = Raises TypeError)
  /\ default_cycle_time = VStr "00:00:10"
  /\ __init__ Kp Ki Kd direction default_cycle_time = Raises TypeError.
Proof.
  split; [|split; [|split; [|split; [|split]]]].
  - intros td. eexists. split; reflexivity.
  - intros v Hv. destruct v; try reflexivity. discriminate Hv.
  - intros v Hv. destruct v; try reflexivity. discriminate Hv.
  - intros s. reflexivity.
  - reflexivity.
  - reflexivity.
Qed.

(** C8: right after construction the stored last-cycle-start value is
    [None], and the [last_cycle_start] property returns the four-character
    string ["None"], which is a string and not [None]. *)
Theorem last_cycle_start_after_init (Kp Ki Kd : float) (direction : PIDConst)
  (ct : PyVal) (self : PidBaseClass) (log : list HostCall) :
  __init__ Kp Ki Kd direction ct = Returns self ->
  _attr_last_cycle_start self = LcsNone
  /\ val_of_last_cycle_start (_attr_last_cycle_start self) = VNone
  /\ outcome (last_cycle_start self log) = Returns "None"
  /\ String.length "None" = 4%nat
  /\ VStr "None" <> VNone.
Proof.
  unfold __init__. intros Hinit.
  assert (Hnone : _attr_last_cycle_start self = LcsNone).
  { destruct ct; cbn in Hinit;
      try discriminate Hinit;
      try (injection Hinit as <-; reflexivity).
    destruct (timedelta_of_kwargs kw);
      [injection Hinit as <-; reflexivity | discriminate]. }
  unfold last_cycle_start, bind, get, ret. cbn [outcome state calls].
  rewrite Hnone. repeat split. discriminate.
Qed.

(** C9: reading [pid_state_attributes] or any of the properties leaves the
    entity (the PID object, the cycle interval, the last-cycle-start value)
    and the host untouched. *)
Theorem properties_read_only :
  reads_only pid_state_attributes
  /\ reads_only cycle_time
  /\ reads_only last_cycle_start
  /\ reads_only k_p
  /\ reads_only k_i
  /\ reads_only k_d
  /\ reads_only enable_pid
  /\ reads_only pid_input
  /\ reads_only pid_output
  /\ reads_only pid_error.
Proof.
  unfold reads_only.
  repeat split;
    rewrite ?pid_state_attributes_run, ?pid_input_run, ?pid_output_run,
      ?pid_error_run; reflexivity.
Qed.

(** ** Further properties of the code *)


(** X2: [_async_start_pid_cycle] does not guard against being called again:
    [n] calls in a row make [n] timer registrations (and [n] calls of
    [async_on_remove]), all for the same callback and period, and leave the
    entity unchanged. *)
Theorem start_pid_cycle_repeated (n : nat) (self : PidBaseClass)
  (log : list HostCall) :
  let r := repeat_py n _async_start_pid_cycle self log in
  let registration :=
    call_async_track_time_interval (hass self) bound_async_pid_cycle
      (_attr_cycle_time self) true in
  outcome r = Returns tt
  /\ state r = self
  /\ exists new : list HostCall,
       calls r = (log ++ new)%list
       /\ List.length new = (2 * n)%nat
       /\ List.length (List.filter is_timer_registration new) = n
       /\ Forall (fun c => c = registration
                           \/ exists h, c = call_async_on_remove h) new.
Proof.
  cbn zeta. revert log. induction n as [|n IH]; intros log.
  - repeat split. exists []. rewrite app_nil_r. repeat split. constructor.
  - cbn [repeat_py].
    pose proof (start_pid_cycle_step self log) as Hstep.
    rewrite (bind_returns _ _ _ _ _ _ _ Hstep).
    destruct (IH (log ++ [call_async_track_time_interval (hass self)
                            bound_async_pid_cycle (_attr_cycle_time self) true;
                          call_async_on_remove
                            (track_time_interval_handle host
                               (log ++ [call_async_track_time_interval
                                          (hass self) bound_async_pid_cycle
                                          (_attr_cycle_time self) true]))])%list)
      as (Hout & Hst & new & Hcalls & Hlen & Hcount & Hall).
    split; [exact Hout|]. split; [exact Hst|].
    eexists (_ :: _ :: new). split.
    + rewrite Hcalls, <- app_assoc. reflexivity.
    + split; [cbn [List.length]; rewrite Hlen; lia|].
      split; [cbn [List.filter is_timer_registration List.length];
              rewrite Hcount; reflexivity|].
      constructor; [left; reflexivity|].
      constructor; [right; eexists; reflexivity|]. exact Hall.
Qed.


(** X4: setting an entry up and then unloading it makes four host calls in
    this order: forward to the platforms, add the update listener, register
    the listener's removal with the entry, unload the platforms.  The result
    is the host's answer to the unload, and no reload is requested. *)
Theorem setup_then_unload (hass0 : HomeAssistant) (entry : ConfigEntry)
  (log : list HostCall) :
  let forward := call_async_forward_entry_setups hass0 entry [NUMBER] in
  let listen := call_add_update_listener entry fn_config_entry_update_listener in
  let handle := update_listener_handle host (log ++ [forward; listen])%list in
  let unload := call_async_unload_platforms hass0 entry [NUMBER] in
  let r := (_ <- async_setup_entry hass0 entry ;;
            async_unload_entry hass0 entry) tt log in
  calls r
  = (log ++ [forward; listen; call_async_on_unload entry handle; unload])%list
  /\ outcome r = Returns (unload_platforms_result host (calls r))
  /\ forall id, call_async_reload hass0 id ∉ drop (List.length log) (calls r).
Proof.
  cbn zeta. unfold async_setup_entry, async_unload_entry,
    async_forward_entry_setups, add_update_listener, async_on_unload,
    async_unload_platforms, bind, ret, host_call, PLATFORMS.
  cbn [outcome state calls].
  rewrite <- !app_assoc. cbn [app].
  split; [reflexivity|]. split; [reflexivity|].
  intros id. rewrite drop_app_length.
  rewrite !not_elem_of_cons. repeat split; try discriminate.
  apply not_elem_of_nil.
Qed.

(** X5: the input, output and error entries of the attribute dictionary
    are never a NaN float: whenever one of them holds a float, that float is
    not NaN (the names being pairwise different). *)
Theorem state_attributes_hold_no_nan (self : PidBaseClass)
  (log : list HostCall) (attr : gmap string PyVal) (key : string) (f : float) :
  NoDup ATTR_names ->
  key ∈ [ATTR_PID_INPUT; ATTR_PID_OUTPUT; ATTR_PID_ERROR] ->
  outcome (pid_state_attributes self log) = Returns attr ->
  attr !! key = Some (VFloat f) ->
  is_nan f = false.
Proof.
  intros Hnd Hkey Hout Hlook.
  rewrite pid_state_attributes_items in Hout. cbn [outcome] in Hout.
  injection Hout as <-.
  assert (Hcase :
    exists x, (list_to_map (reverse (attribute_items self))
                 : gmap string PyVal) !! key
              = Some (if is_nan x then VNone else VFloat x)).
  { rewrite !elem_of_cons in Hkey.
    destruct Hkey as [-> | [-> | [-> | Hnil]]];
      [ exists (last_input (_pid self))
      | exists (output (_pid self))
      | exists (last_error (_pid self))
      | contradict Hnil; apply not_elem_of_nil ];
      apply attribute_items_lookup; try exact Hnd; unfold attribute_items;
      repeat first [apply list_elem_of_here | apply list_elem_of_further]. }
  destruct Hcase as [x Hx].
  assert (Heq : Some (if is_nan x then VNone else VFloat x) = Some (VFloat f))
    by (rewrite <- Hx; exact Hlook).
  destruct (is_nan x) eqn:Hnan; [discriminate Heq|].
  injection Heq as <-. exact Hnan.
Qed.

(** X6: the dictionary's last-cycle-start entry is the stored value, not the
    [last_cycle_start] property: it equals the property's string exactly
    when the stored value is itself a string.  For the [None] of a new
    instance the entry is [None] while the property reads ["None"]. *)
Theorem last_cycle_start_entry_is_not_the_property (self : PidBaseClass)
  (log : list HostCall) :
  NoDup ATTR_names ->
  exists (attr : gmap string PyVal) (s : string),
    outcome (pid_state_attributes self log) = Returns attr
    /\ outcome (last_cycle_start self log) = Returns s
    /\ (attr !! ATTR_LAST_CYCLE_START = Some (VStr s)
        <-> exists s', _attr_last_cycle_start self = LcsStr s')
    /\ (_attr_last_cycle_start self = LcsNone ->
        attr !! ATTR_LAST_CYCLE_START = Some VNone /\ s = "None").
Proof.
  intros Hnd. rewrite pid_state_attributes_items. cbn [outcome].
  eexists. eexists. split; [reflexivity|]. split; [reflexivity|].
  assert (Hlook :
    (list_to_map (reverse (attribute_items self)) : gmap string PyVal)
      !! ATTR_LAST_CYCLE_START
    = Some (val_of_last_cycle_start (_attr_last_cycle_start self))).
  { apply attribute_items_lookup; [exact Hnd|]. unfold attribute_items.
    repeat first [apply list_elem_of_here | apply list_elem_of_further]. }
  rewrite Hlook. destruct (_attr_last_cycle_start self) as [|dt|s'];
    cbn [val_of_last_cycle_start str_last_cycle_start].
  - split; [split|].
    + discriminate.
    + intros [s' Hs']. discriminate Hs'.
    + intros _. split; reflexivity.
  - split; [split|].
    + discriminate.
    + intros [s' Hs']. discriminate Hs'.
    + discriminate.
  - split; [split|].
    + intros _. exists s'. reflexivity.
    + intros _. reflexivity.
    + discriminate.
Qed.

(** X7: the constructor does not check the sign or size of a period given as
    a mapping: for [{"seconds": n}] with any int [n], negative and zero
    included, it stores the normalised duration ([n // 86400] days and
    [n % 86400] seconds), and raises [OverflowError] only when the day count
    is beyond [timedelta]'s range. *)
Theorem init_seconds_mapping (Kp Ki Kd : float) (direction : PIDConst) (n : Z) :
  __init__ Kp Ki Kd direction (VDict {[ "seconds" := n ]})
  = if bool_decide (Z.abs (n / 86400) <= max_delta_days) then
      Returns (mk_entity (PID Kp Ki Kd direction)
                 (mk_timedelta (n / 86400) (n mod 86400) 0) LcsNone None)
    else Raises OverflowError.
Proof.
  unfold __init__, timedelta_unpacked, unpack_kwargs.
  rewrite timedelta_of_seconds.
  destruct (bool_decide (Z.abs (n / 86400) <= max_delta_days)); reflexivity.
Qed.

(** X8: a mapping with a key that is not a keyword of [timedelta] makes the
    constructor raise [TypeError], whatever else the mapping holds. *)
Theorem init_unknown_keyword (Kp Ki Kd : float) (direction : PIDConst)
  (kw : gmap string Z) (key : string) (v : Z) :
  kw !! key = Some v ->
  key ∉ timedelta_keywords ->
  __init__ Kp Ki Kd direction (VDict kw) = Raises TypeError.
Proof.
  intros Hkey Hunknown.
  unfold __init__, timedelta_unpacked, unpack_kwargs, timedelta_of_kwargs.
  rewrite bool_decide_eq_false_2; [reflexivity|].
  intros Hsub. apply Hunknown, Hsub, elem_of_dom. exists v. exact Hkey.
Qed.


(** X10: [filter_nan] filters NaN only: an infinite value is returned as it
    is, so [pid_input], [pid_output] and [pid_error] can be infinite. *)
Theorem filter_nan_keeps_infinities (value : float) (self : PidBaseClass)
  (log : list HostCall) :
  is_infinity value = true ->
  outcome (filter_nan value self log) = Returns (VFloat value).
Proof.
  intros Hinf. rewrite filter_nan_run. cbn [outcome].
  rewrite (infinite_is_not_nan value Hinf). reflexivity.
Qed.

(** X11: whatever the nine names are, equal ones included, the keys of the
    attribute dictionary are exactly those names, so any other key is
    missing; and the enable entry, assigned last, always holds [in_auto]. *)
Theorem state_attributes_keys_and_last_entry (self : PidBaseClass)
  (log : list HostCall) :
  exists attr : gmap string PyVal,
    outcome (pid_state_attributes self log) = Returns attr
    /\ dom attr = list_to_set ATTR_names
    /\ (forall key, key ∉ ATTR_names -> attr !! key = None)
    /\ attr !! ATTR_PID_ENABLE = Some (VBool (in_auto (_pid self))).
Proof.
  rewrite pid_state_attributes_items. cbn [outcome].
  eexists. split; [reflexivity|].
  assert (Hdom : dom (list_to_map (reverse (attribute_items self))
                        : gmap string PyVal)
                 = list_to_set ATTR_names).
  { rewrite dom_list_to_map_L, fmap_reverse, attribute_items_names.
    apply set_eq. intros k.
    rewrite !elem_of_list_to_set, elem_of_reverse. reflexivity. }
  split; [exact Hdom|]. split.
  - intros key Hkey. apply not_elem_of_dom. rewrite Hdom.
    rewrite elem_of_list_to_set. exact Hkey.
  - apply lookup_insert_eq.
Qed.

(** X12: the configuration given to the constructor is what a new
    instance shows as attributes: the cycle-time entry is [str] of the period
    that was passed (or built from the mapping that was passed), the gain
    and enable entries are those of the PID object built from the gains and
    direction, and the last-cycle-start entry is [None]. *)
Theorem attributes_of_new_instance (Kp Ki Kd : float) (direction : PIDConst)
  (ct : PyVal) (self : PidBaseClass) (log : list HostCall) :
  NoDup ATTR_names ->
  __init__ Kp Ki Kd direction ct = Returns self ->
  exists (attr : gmap string PyVal) (td : timedelta),
    outcome (pid_state_attributes self log) = Returns attr
    /\ (ct = VTimedelta td \/ timedelta_unpacked ct = Returns td)
    /\ attr !! ATTR_CYCLE_TIME = Some (VStr (str_timedelta td))
    /\ attr !! ATTR_PID_KP = Some (VFloat (kp (PID Kp Ki Kd direction)))
    /\ attr !! ATTR_PID_KI = Some (VFloat (ki (PID Kp Ki Kd direction)))
    /\ attr !! ATTR_PID_KD = Some (VFloat (kd (PID Kp Ki Kd direction)))
    /\ attr !! ATTR_PID_ENABLE
       = Some (VBool (in_auto (PID Kp Ki Kd direction)))
    /\ attr !! ATTR_LAST_CYCLE_START = Some VNone.
Proof.
  intros Hnd Hinit.
  assert (Hself : exists td,
            (ct = VTimedelta td \/ timedelta_unpacked ct = Returns td)
            /\ self = mk_entity (PID Kp Ki Kd direction) td LcsNone None).
  { unfold __init__ in Hinit.
    destruct ct; cbn in Hinit; try discriminate Hinit.
    - injection Hinit as <-. exists td. split; [left|]; reflexivity.
    - destruct (timedelta_of_kwargs kw) as [td|e] eqn:Hkw; [|discriminate].
      injection Hinit as <-. exists td. split; [right; exact Hkw | reflexivity]. }
  destruct Hself as (td & Hct & ->).
  rewrite pid_state_attributes_items. cbn [outcome].
  eexists. exists td. split; [reflexivity|]. split; [exact Hct|].
  repeat split;
    (apply attribute_items_lookup; [exact Hnd|]; unfold attribute_items;
     cbn [_pid _attr_cycle_time _attr_last_cycle_start val_of_last_cycle_start];
     repeat first [apply list_elem_of_here | apply list_elem_of_further]).
Qed.

End PidBase.

Arguments __init__ {PIDConst} PID k_p k_i k_d direction cycle_time.

(** ** The definitions at concrete inputs *)

Example timedelta_10s :
  timedelta_unpacked (VDict {[ "seconds" := 10 ]}) = Returns ten_seconds.
Proof. vm_compute. reflexivity. Qed.

Example timedelta_mixed :
  timedelta_unpacked (VDict (<[ "hours" := 1 ]> {[ "seconds" := -10 ]}))
  = Returns (mk_timedelta 0 3590 0).
Proof. vm_compute. reflexivity. Qed.

Example timedelta_unknown_keyword :
  timedelta_unpacked (VDict {[ "period" := 10 ]}) = Raises TypeError.
Proof. vm_compute. reflexivity. Qed.

Example timedelta_too_large :
  timedelta_unpacked (VDict {[ "days" := 1000000000 ]}) = Raises OverflowError.
Proof. vm_compute. reflexivity. Qed.

Example str_timedelta_10s : str_timedelta ten_seconds = "0:00:10".
Proof. vm_compute. reflexivity. Qed.

Example str_timedelta_negative :
  str_timedelta (mk_timedelta (-1) 86390 5) = "-1 day, 23:59:50.000005".
Proof. vm_compute. reflexivity. Qed.

Example str_timedelta_days :
  str_timedelta (mk_timedelta 2 3723 0) = "2 days, 1:02:03".
Proof. vm_compute. reflexivity. Qed.

Example str_datetime_stamp :
  str_datetime (mk_datetime 2024 1 2 3 4 5) = "2024-01-02 03:04:05+00:00".
Proof. vm_compute. reflexivity. Qed.

Example init_with_mapping :
  __init__ sample_PID default_k_p default_k_i default_k_d Direction_DIRECT
    (VDict {[ "seconds" := 10 ]})
  = Returns (mk_entity (mk_pid default_k_p default_k_i default_k_d false nan nan nan)
               ten_seconds LcsNone None).
Proof. vm_compute. reflexivity. Qed.

Example init_with_int :
  __init__ sample_PID default_k_p default_k_i default_k_d Direction_DIRECT (VInt 10)
  = Raises TypeError.
Proof. reflexivity. Qed.

Example cycle_time_of_sample :
  outcome (cycle_time sample_entity []) = Returns "0:00:10".
Proof. vm_compute. reflexivity. Qed.

Example last_cycle_start_of_sample :
  outcome (last_cycle_start sample_entity [])
  = Returns "2024-01-02 03:04:05+00:00".
Proof. vm_compute. reflexivity. Qed.

Example start_pid_cycle_of_sample :
  calls (_async_start_pid_cycle sample_host sample_entity [])
  = [ call_async_track_time_interval (Some (mk_hass 1)) bound_async_pid_cycle
        ten_seconds true;
      call_async_on_remove (Unsub 1) ].
Proof. reflexivity. Qed.

Example setup_entry_of_sample :
  async_setup_entry sample_host (mk_hass 1) (mk_entry "abc") tt []
  = mk_run (Returns true) tt
      [ call_async_forward_entry_setups (mk_hass 1) (mk_entry "abc") [NUMBER];
        call_add_update_listener (mk_entry "abc") fn_config_entry_update_listener;
        call_async_on_unload (mk_entry "abc") (Unsub 2) ].
Proof. reflexivity. Qed.

(** ** The claims with hypotheses, at concrete inputs *)

Lemma nan_filtered_properties_witness :
  outcome (pid_input sample_entity []) = Returns (VFloat 21.5)
  /\ outcome (pid_error sample_entity []) = Returns VNone.
Proof.
  destruct (nan_filtered_properties sample_entity [])
    as (_ & Hin & _ & _ & Herr & _).
  split; [apply Hin | apply Herr]; reflexivity.
Defined.

Lemma init_wires_gains_witness :
  _pid (mk_entity (sample_PID 2 0.5 0 Direction_REVERSE) ten_seconds LcsNone None)
  = sample_PID 2 0.5 0 Direction_REVERSE
  /\ outcome (k_p sample_entity []) = Returns 2%float
  /\ outcome (k_i sample_entity []) = Returns 0.5%float
  /\ outcome (k_d sample_entity []) = Returns 0%float.
Proof.
  destruct (init_wires_gains Direction sample_PID 2 0.5 0 Direction_REVERSE
              (VTimedelta ten_seconds) _ eq_refl) as [Hpid Hprops].
  split; [exact Hpid | exact (Hprops sample_entity [])].
Defined.

Lemma pid_state_attributes_nine_keys_witness :
  exists attr : gmap string PyVal,
    outcome (pid_state_attributes "cycle_time" "last_cycle_start" "enable"
               "error" "input" "kd" "ki" "kp" "output" sample_entity [])
    = Returns attr
    /\ size attr = 9%nat
    /\ attr !! "last_cycle_start"
       = Some (VDatetime (mk_datetime 2024 1 2 3 4 5)).
Proof.
  assert (Hnd : NoDup (ATTR_names "cycle_time" "last_cycle_start" "enable"
                         "error" "input" "kd" "ki" "kp" "output")).
  { refine (bool_decide_unpack _ _). vm_compute. exact I. }
  destruct (pid_state_attributes_nine_keys "cycle_time" "last_cycle_start"
              "enable" "error" "input" "kd" "ki" "kp" "output"
              sample_entity [] Hnd)
    as (attr & Hout & _ & Hsize & _ & _ & _ & _ & _ & _ & _ & Hlcs & _).
  exists attr. split; [exact Hout | split; [exact Hsize | exact Hlcs]].
Defined.

Lemma init_cycle_time_witness :
  __init__ sample_PID default_k_p default_k_i default_k_d Direction_DIRECT
    (VDict {[ "seconds" := 10 ]})
  = Returns (mk_entity
               (sample_PID default_k_p default_k_i default_k_d Direction_DIRECT)
               ten_seconds LcsNone None)
  /\ timedelta_unpacked (VStr "00:00:10") = Raises TypeError.
Proof.
  destruct (init_cycle_time Direction sample_PID default_k_p default_k_i
              default_k_d Direction_DIRECT)
    as (_ & Hother & Hmapping & _).
  split.
  - rewrite (Hother (VDict {[ "seconds" := 10 ]}) eq_refl).
    vm_compute. reflexivity.
  - apply Hmapping. reflexivity.
Defined.

Lemma last_cycle_start_after_init_witness :
  _attr_last_cycle_start
    (mk_entity (sample_PID default_k_p default_k_i default_k_d Direction_DIRECT)
       ten_seconds LcsNone None) = LcsNone
  /\ outcome (last_cycle_start
       (mk_entity (sample_PID default_k_p default_k_i default_k_d Direction_DIRECT)
          ten_seconds LcsNone None) []) = Returns "None".
Proof.
  destruct (last_cycle_start_after_init Direction sample_PID
              default_k_p default_k_i default_k_d Direction_DIRECT
              (VTimedelta ten_seconds) _ [] eq_refl)
    as (Hstored & _ & Hstr & _).
  split; [exact Hstored | exact Hstr].
Defined.

(** ** The further properties with hypotheses, at concrete inputs *)


Lemma state_attributes_hold_no_nan_witness : is_nan 21.5 = false.
Proof.
  eapply (state_attributes_hold_no_nan "cycle_time" "last_cycle_start"
            "enable" "error" "input" "kd" "ki" "kp" "output"
            sample_entity [] _ "input" 21.5).
  - refine (bool_decide_unpack _ _). vm_compute. exact I.
  - apply list_elem_of_here.
  - reflexivity.
  - vm_compute. reflexivity.
Defined.

Lemma last_cycle_start_entry_is_not_the_property_witness :
  exists (attr : gmap string PyVal) (s : string),
    outcome (pid_state_attributes "cycle_time" "last_cycle_start" "enable"
               "error" "input" "kd" "ki" "kp" "output" sample_entity [])
    = Returns attr
    /\ outcome (last_cycle_start sample_entity []) = Returns s
    /\ attr !! "last_cycle_start" <> Some (VStr s).
Proof.
  assert (Hnd : NoDup (ATTR_names "cycle_time" "last_cycle_start" "enable"
                         "error" "input" "kd" "ki" "kp" "output")).
  { refine (bool_decide_unpack _ _). vm_compute. exact I. }
  destruct (last_cycle_start_entry_is_not_the_property "cycle_time"
              "last_cycle_start" "enable" "error" "input" "kd" "ki" "kp"
              "output" sample_entity [] Hnd)
    as (attr & s & Hout & Hstr & [Hiff _] & _).
  exists attr, s. split; [exact Hout|]. split; [exact Hstr|].
  intros Heq. destruct (Hiff Heq) as [s' Hs']. discriminate Hs'.
Defined.

Lemma init_unknown_keyword_witness :
  __init__ sample_PID default_k_p default_k_i default_k_d Direction_DIRECT
    (VDict (<[ "period" := 10 ]> {[ "seconds" := 10 ]}))
  = Raises TypeError.
Proof.
  apply (init_unknown_keyword Direction sample_PID default_k_p default_k_i
           default_k_d Direction_DIRECT
           (<[ "period" := 10 ]> {[ "seconds" := 10 ]}) "period" 10).
  - vm_compute. reflexivity.
  - refine (bool_decide_unpack _ _). vm_compute. exact I.
Defined.


Lemma filter_nan_keeps_infinities_witness :
  outcome (filter_nan neg_infinity sample_entity [])
  = Returns (VFloat neg_infinity).
Proof.
  apply (filter_nan_keeps_infinities neg_infinity sample_entity []).
  reflexivity.
Defined.

Lemma attributes_of_new_instance_witness :
  exists (attr : gmap string PyVal) (td : timedelta),
    outcome (pid_state_attributes "cycle_time" "last_cycle_start" "enable"
               "error" "input" "kd" "ki" "kp" "output"
               (mk_entity (sample_PID 2 0.5 0 Direction_DIRECT) ten_seconds
                  LcsNone None) [])
    = Returns attr
    /\ attr !! "cycle_time" = Some (VStr (str_timedelta td))
    /\ attr !! "kp" = Some (VFloat 2)
    /\ attr !! "last_cycle_start" = Some VNone.
Proof.
  assert (Hnd : NoDup (ATTR_names "cycle_time" "last_cycle_start" "enable"
                         "error" "input" "kd" "ki" "kp" "output")).
  { refine (bool_decide_unpack _ _). vm_compute. exact I. }
  destruct (attributes_of_new_instance Direction sample_PID "cycle_time"
              "last_cycle_start" "enable" "error" "input" "kd" "ki" "kp"
              "output" 2 0.5 0 Direction_DIRECT (VTimedelta ten_seconds)
              _ [] Hnd eq_refl)
    as (attr & td & Hout & _ & Hct & Hkp & _ & _ & _ & Hlcs).
  exists attr, td. repeat split; assumption.
Defined.
